(** * Verification of bivarcontours: dimension propagation, axis sampling,
      evaluation, filename handling and the Contour constructor.

    Shallow embedding of the Python sources under [src/src/bivarcontours].
    Python exceptions are values of [exn]; fallible code returns [result]. *)

From Stdlib Require Import Ascii String List Bool ZArith Lia.
From Stdlib Require Import Floats.
Import ListNotations.
Open Scope string_scope.

(** ** Python exceptions and fallible results *)

Inductive exn : Type :=
| IndexError
| TypeError
| KeyError
| SympifyError
| AttributeError
| ZeroDivisionError
| ValueError (msg : string)
| AssertionError (msg : string)
| UnitError (msg : string)
| DimensionalityError
| UndefinedUnitError
| RecursionError
| OverflowError (msg : string)
| TokenError.

Inductive result (A : Type) : Type :=
| Ok (a : A)
| Err (e : exn).
Arguments Ok {A} a.
Arguments Err {A} e.

Definition bind {A B} (m : result A) (k : A -> result B) : result B :=
  match m with
  | Ok a => k a
  | Err e => Err e
  end.

Notation "x <- m ;; k" := (bind m (fun x => k))
  (at level 61, m at next level, right associativity).

Lemma bind_ok {A B} (a : A) (k : A -> result B) : bind (Ok a) k = k a.
Proof. reflexivity. Qed.

(** ** Python's [ast] module, the fragment the formulas use *)

Module PyAst.

Inductive operator : Type := Add | Sub | Mult | Div | Pow | Mod | FloorDiv.

Inductive unaryop : Type := UAdd | USub.

(** [ast.parse(formula).body[0].value]: an expression node. *)
Inductive expr : Type :=
| Name (id : string)
| Constant (value : float)
| BinOp (left : expr) (op : operator) (right : expr)
| UnaryOp (op : unaryop) (operand : expr).

End PyAst.

Import PyAst.

(** ** [unit_handling/formula_ast_dim.py]

    The module keeps its dimensions in a global dict
    [DIMENSIONS = {'x': 'm', 'y': 's'}]; it is a parameter [D] here (an
    association list read by [dict.get]), so that the properties hold for
    every choice of the two axis dimensions. A dimension is a Python [str]
    or [None] ([DIMENSIONS.get] of an unknown name). *)
Module FormulaAstDim.

Definition pyval := option string.

Definition DIMENSIONS : list (string * string) := [("x", "m"); ("y", "s")].

Fixpoint dict_get (d : list (string * string)) (k : string) : pyval :=
  match d with
  | [] => None
  | (k', v) :: d' => if String.eqb k k' then Some v else dict_get d' k
  end.

(** Python [==] on [str | None]. *)
Definition pyval_eqb (a b : pyval) : bool :=
  match a, b with
  | Some s, Some t => String.eqb s t
  | None, None => true
  | _, _ => false
  end.

(** [a + sep + b] on Python values: [None + str] raises [TypeError]. *)
Definition concat3 (a : pyval) (sep : string) (b : pyval) : result pyval :=
  match a, b with
  | Some s, Some t => Ok (Some (s ++ sep ++ t))
  | _, _ => Err TypeError
  end.

(** The [if visit:] branch for a [BinOp], once both operand dimensions
    have been popped. *)
Definition result_dim (op : operator) (left_dim right_dim : pyval)
  : result pyval :=
  match op with
  | Mult => concat3 left_dim "*" right_dim
  | Add | Sub =>
      Ok (if pyval_eqb left_dim right_dim then left_dim
          else Some "Dimension Mismatch")
  | Div =>
      if negb (pyval_eqb left_dim right_dim)
      then concat3 left_dim "/" right_dim
      else Ok (Some EmptyString)
  | _ => Ok (Some "Unhandled Operator")
  end.

(** [right_dim = out.pop(); left_dim = out.pop(); ...; out.append(result_dim)].
    The list [out] is kept with its last element (the top) first. *)
Definition pop_combine (op : operator) (out : list pyval)
  : result (list pyval) :=
  match out with
  | right_dim :: left_dim :: out' =>
      r <- result_dim op left_dim right_dim ;; Ok (r :: out')
  | _ => Err IndexError
  end.

(** One iteration of [while stack:]; the stack has its top first, so
    [stack.extend([(True, node), (False, node.right), (False, node.left)])]
    puts [(False, node.left)] on top. *)
Fixpoint loop (fuel : nat) (D : list (string * string))
  (stack : list (bool * expr)) (out : list pyval) : result (list pyval) :=
  match stack with
  | [] => Ok out
  | (visit, node) :: stack' =>
      match fuel with
      | O => Err IndexError
      | S fuel' =>
          match node with
          | Name id => loop fuel' D stack' (dict_get D id :: out)
          | BinOp l op r =>
              if visit then
                out' <- pop_combine op out ;; loop fuel' D stack' out'
              else loop fuel' D ((false, l) :: (false, r) :: (true, node) :: stack') out
          | _ =>
              (* print("Skipping node type ...") *)
              loop fuel' D stack' out
          end
      end
  end.

(** Number of iterations of the [while] loop spent on one node. *)
Fixpoint steps (e : expr) : nat :=
  match e with
  | BinOp l _ r => 2 + steps l + steps r
  | _ => 1
  end.

(** [return out[0]]: the first appended element, last in our list. *)
Definition first_out (out : list pyval) : result pyval :=
  match rev out with
  | v :: _ => Ok v
  | [] => Err IndexError
  end.

(** [post_order(formula)] on the parsed expression [ast_tree.body[0].value]. *)
Definition post_order (D : list (string * string)) (e : expr) : result pyval :=
  out <- loop (steps e) D [(false, e)] [] ;; first_out out.

(** The post-order traversal as a structural recursion over the tree, with
    the same output stack. *)
Fixpoint post (D : list (string * string)) (e : expr) (out : list pyval)
  : result (list pyval) :=
  match e with
  | Name id => Ok (dict_get D id :: out)
  | BinOp l op r =>
      o1 <- post D l out ;; o2 <- post D r o1 ;; pop_combine op o2
  | _ => Ok out
  end.

(** Iterations needed to empty a stack. *)
Definition weight (st : list (bool * expr)) : nat :=
  fold_right (fun (p : bool * expr) n => (if fst p then 1 else steps (snd p)) + n) 0 st.

Lemma steps_pos e : 1 <= steps e.
Proof. destruct e; simpl; lia. Qed.

Lemma loop_node D e : forall st out fuel,
  steps e + weight st <= fuel ->
  loop fuel D ((false, e) :: st) out
  = (o <- post D e out ;; loop (fuel - steps e) D st o).
Proof.
  induction e as [id | v | l IHl op r IHr | uop a]; intros st out fuel Hf;
    simpl in Hf |- *.
  - destruct fuel as [|fuel]; [lia|]. simpl. now rewrite Nat.sub_0_r.
  - destruct fuel as [|fuel]; [lia|]. simpl. now rewrite Nat.sub_0_r.
  - destruct fuel as [|fuel]; [lia|]. simpl.
    rewrite IHl by (simpl; lia).
    destruct (post D l out) as [o1|x]; simpl; [|reflexivity].
    rewrite IHr by (simpl; lia).
    destruct (post D r o1) as [o2|x]; simpl; [|reflexivity].
    destruct (fuel - steps l - steps r) as [|k] eqn:Hk; [lia|].
    simpl. destruct (pop_combine op o2); simpl; [|reflexivity].
    f_equal. lia.
  - destruct fuel as [|fuel]; [lia|]. simpl. now rewrite Nat.sub_0_r.
Qed.

Lemma post_order_post D e :
  post_order D e = (o <- post D e [] ;; first_out o).
Proof.
  unfold post_order. rewrite loop_node by (simpl; lia).
  destruct (post D e []); simpl; [|reflexivity].
  now rewrite Nat.sub_diag.
Qed.

(** A node leaves at most one new entry on the output stack. *)
Lemma post_length D e : forall out out',
  post D e out = Ok out' -> length out' <= S (length out).
Proof.
  induction e as [id | v | l IHl op r IHr | uop a]; intros out out' H;
    simpl in H.
  - inversion H; subst; simpl; lia.
  - inversion H; subst; lia.
  - destruct (post D l out) as [o1|x] eqn:H1; [|discriminate]; simpl in H.
    destruct (post D r o1) as [o2|x] eqn:H2; [|discriminate]; simpl in H.
    apply IHl in H1. apply IHr in H2.
    destruct o2 as [|a [|b o3]]; simpl in H; try discriminate.
    destruct (result_dim op b a); simpl in H; [|discriminate].
    inversion H; subst; simpl in *; lia.
  - inversion H; subst; lia.
Qed.

(** A node only looks at what it pushed itself: entries below the
    initial stack are untouched. *)
Lemma post_frame D e : forall o o' below,
  post D e o = Ok o' -> post D e (app o below) = Ok (app o' below).
Proof.
  induction e as [id | v | l IHl op r IHr | uop a]; intros o o' below H;
    simpl in H |- *.
  - now inversion H.
  - now inversion H.
  - destruct (post D l o) as [o1|x] eqn:H1; [|discriminate]; simpl in H.
    destruct (post D r o1) as [o2|x] eqn:H2; [|discriminate]; simpl in H.
    rewrite (IHl _ _ below H1); simpl.
    rewrite (IHr _ _ below H2); simpl.
    destruct o2 as [|a [|b o3]]; simpl in H; try discriminate.
    simpl. destruct (result_dim op b a); simpl in H |- *; [|discriminate].
    inversion H; reflexivity.
  - now inversion H.
Qed.

(** A formula whose [post_order] succeeds pushes exactly its dimension. *)
Lemma post_order_single D e d :
  post_order D e = Ok d -> post D e [] = Ok [d].
Proof.
  rewrite post_order_post. destruct (post D e []) as [o|x] eqn:H;
    simpl; [|discriminate].
  apply post_length in H. simpl in H.
  destruct o as [|a [|b o]]; simpl in *; try lia; try discriminate.
  intros Hd. inversion Hd. reflexivity.
Qed.

(** The dimension of a binary node whose two operands are well formed. *)
Lemma post_order_binop D l op r dl dr :
  post_order D l = Ok dl -> post_order D r = Ok dr ->
  post_order D (BinOp l op r) = result_dim op dl dr.
Proof.
  intros Hl Hr. apply post_order_single in Hl, Hr.
  rewrite post_order_post. simpl. rewrite Hl. simpl.
  apply (post_frame _ _ _ _ [dl]) in Hr. simpl in Hr. rewrite Hr. simpl.
  destruct (result_dim op dl dr); reflexivity.
Qed.

End FormulaAstDim.

(** ** IEEE 754 doubles: Python [float] and numpy [float64]

    Python floats are Rocq's primitive binary64 floats. The integer
    conversions below are read off the exact value [(-1)^s * m * 2^e]. *)
Module PyFloat.

Open Scope float_scope.

(** The exact integer [float(z)] for [|z| < 2^53]. *)
Definition of_Z (z : Z) : float :=
  match z with
  | Z0 => 0
  | Zpos p => SF2Prim (S754_finite false p 0)
  | Zneg p => SF2Prim (S754_finite true p 0)
  end.

(** [|x|] rounded down, and whether the rounding was exact. *)
Definition abs_floor (m : positive) (e : Z) : Z * bool :=
  if (0 <=? e)%Z then (Z.shiftl (Zpos m) e, true)
  else let q := Z.shiftr (Zpos m) (- e) in
       (q, (Z.shiftl q (- e) =? Zpos m)%Z).

(** [math.ceil]: [None] for a NaN or an infinity. *)
Definition ceil (x : float) : option Z :=
  match Prim2SF x with
  | S754_zero _ => Some 0%Z
  | S754_finite false m e =>
      let '(q, exact) := abs_floor m e in Some (if exact then q else q + 1)%Z
  | S754_finite true m e => let '(q, _) := abs_floor m e in Some (- q)%Z
  | _ => None
  end.

(** [math.isnan(x)]. *)
Definition is_nan (x : float) : bool := negb (x =? x).

(** [int(x)]: truncation towards zero; [ValueError] on a NaN and
    [OverflowError] on an infinity. *)
Definition py_int (x : float) : result Z :=
  match Prim2SF x with
  | S754_zero _ => Ok 0%Z
  | S754_finite s m e =>
      let '(q, _) := abs_floor m e in Ok (if s then - q else q)%Z
  | S754_nan => Err (ValueError "cannot convert float NaN to integer")
  | S754_infinity _ => Err (OverflowError "cannot convert float infinity to integer")
  end.

End PyFloat.

(** ** numpy's sample generators [np.arange] and [np.linspace] for float
    arguments, as numpy computes them ([PyArray_ArangeObj] with the
    [DOUBLE_fill] loop, and [numpy.linspace] with [endpoint=True]). *)
Module Numpy.

Open Scope float_scope.

(** [DOUBLE_fill]: [buffer[i] = start + i*delta] with
    [delta = buffer[1] - buffer[0]], for [i] from [k] on. *)
Fixpoint fill_from (start delta : float) (k : Z) (n : nat) : list float :=
  match n with
  | O => []
  | S n' => (start + PyFloat.of_Z k * delta) :: fill_from start delta (k + 1)%Z n'
  end.

(** [NPY_MAX_INTP] on a 64-bit platform. *)
Definition NPY_MAX_INTP : Z := (2 ^ 63 - 1)%Z.

(** [np.arange(start, stop, step)] for Python floats ([_calc_length] and
    [_safe_ceil_to_intp]): [(stop - start) / step] is a Python division,
    which raises [ZeroDivisionError] for [step == 0]; [len] is its ceiling,
    a [ValueError] for a NaN and an [OverflowError] outside the [npy_intp]
    range; no element when [len <= 0]; the array of [len] doubles must not
    exceed [NPY_MAX_INTP] bytes. [buffer[0] = start],
    [buffer[1] = start + step], the rest by [DOUBLE_fill]. A [MemoryError]
    for an allocation the host cannot satisfy is not modelled. *)
Definition arange (start stop step : float) : result (list float) :=
  if step =? 0 then Err ZeroDivisionError
  else
    let q := (stop - start) / step in
    match PyFloat.ceil q with
    | None =>
        if PyFloat.is_nan q then Err (ValueError "arange: cannot compute length")
        else Err (OverflowError "arange: overflow while computing length")
    | Some len =>
        if ((len <? - 2 ^ 63) || (2 ^ 63 <? len))%Z
        then Err (OverflowError "arange: overflow while computing length")
        else if (NPY_MAX_INTP <? len * 8)%Z
        then Err (ValueError "Maximum allowed size exceeded")
        else
          let n := Z.to_nat len in
          match n with
          | O => Ok []
          | 1%nat => Ok [start]
          | S (S n') =>
              let next := start + step in
              Ok (start :: next :: fill_from start (next - start) 2 n')
          end
    end.

(** [y = arange(0, num) * step + start] for the first [num - 1] samples. *)
Fixpoint lin_from (start step : float) (k : Z) (n : nat) : list float :=
  match n with
  | O => []
  | S n' => (PyFloat.of_Z k * step + start) :: lin_from start step (k + 1)%Z n'
  end.

(** [np.linspace(start, stop, num)]: [div = num - 1],
    [step = (stop - start) / div]; when [step == 0] numpy computes
    [(i / div) * delta] instead; [y[-1] = stop] when [num > 1]. *)
Definition linspace (start stop : float) (num : Z) : result (list float) :=
  if (num <? 0)%Z then Err (ValueError "Number of samples must be non-negative.")
  else
    let delta := stop - start in
    match Z.to_nat num with
    | O => Ok []
    | 1%nat => Ok [0 * delta + start]
    | S (S n') =>
        let div := PyFloat.of_Z (num - 1) in
        let step := delta / div in
        let body :=
          if step =? 0
          then map (fun i => PyFloat.of_Z i / div * delta + start)
                 (map Z.of_nat (seq 0 (S n')))
          else lin_from start step 0 (S n') in
        Ok (body ++ [stop])%list
    end.

End Numpy.

(** ** [bivarcontours._generate_values]

    [np.logspace(np.log10(start), np.log10(stop), num=n)] needs base-10
    logarithms and powers, which the primitive floats do not have: it is the
    parameter [logspace] of the section (any function of [start], [stop] and
    [n]). *)
Section GenerateValues.

Variable logspace : float -> float -> Z -> result (list float).

Definition _generate_values (start stop step_interval : float)
  (nstep log : bool) : result (list float) :=
  if nstep && log then
    n <- PyFloat.py_int step_interval ;; logspace start stop n
  else if nstep && negb log then
    n <- PyFloat.py_int step_interval ;; Numpy.linspace start stop n
  else Numpy.arange start stop step_interval.

End GenerateValues.

(** ** [bivarcontours.Contour.__init__] and [initialize_swapping_axes]

    The [isinstance] assertions are discharged by the Rocq types of the
    arguments (Python numbers are floats here). [unit_validation] asks pint
    for [UnitQuantity(1, dim)]: pint's answer is the parameter
    [UnitQuantity].
    The attributes that [__init__] sets to [None] are not modelled. *)
Module ContourInit.

Record axes := mkAxes {
  label_1 : string; min_1 : float; max_1 : float; step_1 : float; dim_1 : string;
  label_2 : string; min_2 : float; max_2 : float; step_2 : float; dim_2 : string
}.

Record Contour := mkContour {
  title : string;
  formula : string;
  dim_res : string;
  nstep_x : bool;
  nstep_y : bool;
  x_log : bool;
  y_log : bool;
  swap_axes : bool;
  ax : axes;
  verbose : bool
}.


Section Init.

(** [UnitQuantity(1, dim)], [UnitQuantity] being imported from
    [result_unit.map_base_units] (not in the repository), a pint quantity
    constructor: [Ok] when pint builds the quantity,
    [UndefinedUnitError] for a unit name pint does not know, or whatever
    other exception pint raises on a malformed unit expression (such as an
    [AssertionError] for ['m/']). *)
Variable UnitQuantity : string -> result unit.

(** Whether pint accepts the unit expression. *)
Definition unit_defined (dim : string) : bool :=
  match UnitQuantity dim with
  | Ok _ => true
  | Err _ => false
  end.

(** [unit_validation(dims)]: the [except UndefinedUnitError] turns pint's
    [UndefinedUnitError] into a [UnitError]; any other exception of pint
    propagates unchanged. *)
Fixpoint unit_validation (dims : list string) : result unit :=
  match dims with
  | [] => Ok tt
  | dim :: ds =>
      match UnitQuantity dim with
      | Ok _ => unit_validation ds
      | Err UndefinedUnitError =>
          Err (UnitError ("Dimension " ++ dim ++ " is not defined in the pint module"))
      | Err e => Err e
      end
  end.

(** [assert cond, msg]. *)
Definition py_assert (cond : bool) (msg : string) : result unit :=
  if cond then Ok tt else Err (AssertionError msg).

(** [initialize_swapping_axes], reading [self.swap_axes]. *)
Definition initialize_swapping_axes (swap : bool)
  (label_1 label_2 : string) (min_1 max_1 step_1 : float) (dim_1 : string)
  (min_2 max_2 step_2 : float) (dim_2 : string) : axes :=
  if swap then
    mkAxes label_2 min_2 max_2 step_2 dim_2 label_1 min_1 max_1 step_1 dim_1
  else
    mkAxes label_1 min_1 max_1 step_1 dim_1 label_2 min_2 max_2 step_2 dim_2.

Definition __init__ (title label_1 label_2 formula dim_res : string)
  (min_1 max_1 step_1 : float) (dim_1 : string)
  (min_2 max_2 step_2 : float) (dim_2 : string)
  (nstep_x nstep_y x_log y_log swap_axes verbose : bool) : result Contour :=
  _ <- unit_validation [dim_res; dim_1; dim_2] ;;
  _ <- py_assert (min_1 <? max_1)%float "min_1 should be less than max_1" ;;
  _ <- py_assert (min_2 <? max_2)%float "min_2 should be less than max_2" ;;
  _ <- py_assert (0 <? step_1)%float "step_1 should be a positive number" ;;
  _ <- py_assert (0 <? step_2)%float "step_2 should be a positive number" ;;
  Ok (mkContour title formula dim_res nstep_x nstep_y x_log y_log swap_axes
        (initialize_swapping_axes swap_axes label_1 label_2 min_1 max_1 step_1
           dim_1 min_2 max_2 step_2 dim_2)
        verbose).

End Init.

End ContourInit.

(** ** [_is_valid_filename] and [_sanitize_filename]

    A Python [str] is a list of code points. The regular-expression classes
    [\w] (Unicode word characters) and [\s] (Unicode white space) are the
    parameters [is_word] and [is_space]. *)
Module Filename.

Definition pystr := list N.

(** The characters the filename pattern excludes besides white space:
    backslash, slash, colon, star, question mark, double quote, less,
    greater, bar and at sign, by code point. *)
Definition forbidden : list N := [92; 47; 58; 42; 63; 34; 60; 62; 124; 64]%N.

Section Regex.

Variables is_word is_space : N -> bool.

Definition allowed (c : N) : bool :=
  negb (existsb (N.eqb c) forbidden) && negb (is_space c).

(** [re.match] of the anchored pattern: one or more allowed characters up
    to the end; Python's end anchor also matches just before a final
    newline. *)
Definition pattern_match (s : pystr) : bool :=
  match s with
  | [] => false
  | _ =>
      forallb allowed s
      || (match rev s with
          | nl :: (_ :: _) as t => N.eqb nl 10 && forallb allowed t
          | _ => false
          end)
  end.

Definition _is_valid_filename (filename : pystr) : bool :=
  match filename with
  | [] => false
  | _ => pattern_match filename
  end.

(** [re.sub(r'[^\w\.]', '_', filename)]: every character outside [\w] and
    ['.'] (code point 46) becomes ['_'] (code point 95). *)
Definition _sanitize_filename (filename : pystr) : pystr :=
  map (fun c => if is_word c || N.eqb c 46%N then c else 95%N)
    filename.

End Regex.

End Filename.

(** ** [bivarcontours.calculate_z] and [bivarcontours.runtime_calculate_z]

    Both functions hand the formula to sympy and wrap a magnitude into a pint
    quantity. The sympy, pint and numexpr operations they call, and the
    functions imported from [result_unit.map_base_units] (a package that is
    not part of the repository), are the parameters of the section; the
    control flow between them (the [try]/[except] blocks,
    the order of the calls, which magnitude is wrapped) is the functions'
    own. *)
Module CalculateZ.

(** A pint unit as pint's [UnitsContainer]: unit names with exponents;
    [[]] is [dimensionless]. *)
Definition punit := list (string * Z).

(** The keys of [unit_mapping_pint_sympy] in
    [src/bivarcontours/map_base_units.py], with the name of the sympy unit
    each maps to. *)
Definition unit_mapping_pint_sympy : list (punit * string) :=
  [([("meter", 1%Z)], "meter"); ([("second", 1%Z)], "second");
   ([("ampere", 1%Z)], "ampere"); ([("candela", 1%Z)], "candela");
   ([("gram", 1%Z)], "kilogram / 1000"); ([("mole", 1%Z)], "mole");
   ([("kelvin", 1%Z)], "kelvin"); ([("radian", 1%Z)], "radian")].

Fixpoint punit_eqb (u v : punit) : bool :=
  match u, v with
  | [], [] => true
  | (n, k) :: u', (m, l) :: v' => String.eqb n m && Z.eqb k l && punit_eqb u' v'
  | _, _ => false
  end.

(** [dict[key]]: [KeyError] for a missing key. *)
Fixpoint lookup (d : list (punit * string)) (k : punit) : result string :=
  match d with
  | [] => Err KeyError
  | (k', v) :: d' => if punit_eqb k k' then Ok v else lookup d' k
  end.

(** The magnitude handed to [UREG.Quantity]: a sympy matrix of symbols, a
    numpy grid, or [None]. *)
Inductive magnitude : Type :=
| MSymbols (entries : list (list string))
| MGrid (g : list (list float))
| MNone.

(** The second component of [is_dimensionless]: the empty string or a base quantity. *)
Inductive base (pq : Type) : Type := BaseStr (s : string) | BaseQ (q : pq).

(** The arguments substituted for [x] and [y] in [result_unit_of_formula]:
    sympy quantities, or pint units as [runtime_calculate_z] passes them. *)
Inductive subst_arg (sexpr : Type) : Type :=
| SQuantity (e : sexpr)
| SPintUnit (u : punit).

(** The argument of [calculate_z]: a plain number or a pint quantity. *)
Inductive pyarg (pq : Type) : Type := PyNumber (f : float) | PintQuantity (q : pq).

Arguments BaseStr {pq} s.
Arguments BaseQ {pq} q.
Arguments SQuantity {sexpr} e.
Arguments SPintUnit {sexpr} u.
Arguments PyNumber {pq} f.
Arguments PintQuantity {pq} q.

(** The sympy, pint and numexpr operations the two functions call, and the
    functions [bivarcontours.py] imports from [result_unit.map_base_units]
    ([pint_to_sympy_unit], [create_sympy_quantity],
    [sympy_to_pint_quantity]): the [result_unit] package is not part of the
    repository, so nothing is assumed about them. *)
Record collaborators := {
  (** sympy expressions and [sympify] *)
  sexpr : Type;
  sympify : string -> result sexpr;
  (** pint quantities: [.to_base_units()] and [.magnitude] *)
  pq : Type;
  to_base_units : pq -> pq;
  pq_magnitude : pq -> float;
  (** [UREG.Quantity(f'{value} {unit}').units], as
      [src/bivarcontours/map_base_units.create_pint_quantity] builds it *)
  create_pint_quantity_units : float -> base pq -> result punit;
  (** [result_unit.map_base_units.pint_to_sympy_unit(value, pint_unit)] *)
  result_unit_pint_to_sympy_unit : float -> base pq -> result string;
  (** [result_unit.map_base_units.create_sympy_quantity(value, sympy_unit)] *)
  create_sympy_quantity : float -> string -> sexpr;
  (** [result_unit_of_formula(parsed, x_sym, y_sym, x_unit, y_unit)]:
      [convert_to(.., SIBASE).n(2)] on both units, then [subs] *)
  result_unit_of_formula : sexpr -> subst_arg sexpr -> subst_arg sexpr -> result sexpr;
  (** [result_unit.map_base_units.sympy_to_pint_quantity], giving the unit argument of
      [UREG.Quantity]; [is_Float] tests [isinstance(.., Float)] *)
  unit_arg : Type;
  sympy_to_pint_quantity : sexpr -> result unit_arg;
  is_Float : unit_arg -> bool;
  Hz : unit_arg;
  (** [UREG.Quantity(magnitude, unit)], [.dimensionality] and
      [UREG.parse_expression(z_dim).dimensionality] *)
  quantity : Type;
  dimensionality : Type;
  UREG_Quantity : magnitude -> unit_arg -> result quantity;
  dim_of : quantity -> dimensionality;
  parse_dimensionality : string -> result dimensionality;
  dim_eqb : dimensionality -> dimensionality -> bool;
  (** [ne.evaluate(formula_)] with [x] and [y] bound to the two grids *)
  ne_evaluate : string -> list (list float) -> list (list float)
    -> result (list (list float))
}.

Section Collaborators.

Variable C : collaborators.

(** [is_dimensionless(value)]: [.to_base_units()] raises [AttributeError]
    on a plain number, which is caught. *)
Definition is_dimensionless (value : pyarg C.(pq)) : float * base C.(pq) :=
  match value with
  | PyNumber f => (f, BaseStr EmptyString)
  | PintQuantity q => (C.(pq_magnitude) q, BaseQ (C.(to_base_units) q))
  end.

(** [try: sympify(formula_) except Exception as e: raise ValueError("invalidFormula")]. *)
Definition sympify_or_invalid (formula_ : string) : result C.(sexpr) :=
  match C.(sympify) formula_ with
  | Ok p => Ok p
  | Err _ => Err (ValueError "invalidFormula")
  end.

(** [pint_to_sympy_unit(value, pint_unit)] of
    [src/bivarcontours/map_base_units.py]. [calculate_z] does not call this
    one: [bivarcontours.py] imports [pint_to_sympy_unit] from
    [result_unit.map_base_units], the collaborator
    [result_unit_pint_to_sympy_unit]. *)
Definition pint_to_sympy_unit (value : float) (pint_unit : base C.(pq)) : result string :=
  u <- C.(create_pint_quantity_units) value pint_unit ;;
  lookup unit_mapping_pint_sympy u.

(** [if isinstance(expected_result_unit, Float): expected_result_unit = 'Hz']. *)
Definition float_to_Hz (u : C.(unit_arg)) : C.(unit_arg) :=
  if C.(is_Float) u then C.(Hz) else u.

(** The common tail: wrap, then compare with the target dimensionality. *)
Definition wrap_and_check (magn : magnitude) (expected_result_unit : C.(unit_arg))
  (z_dim : string) : result C.(quantity) :=
  result_quant <- C.(UREG_Quantity) magn expected_result_unit ;;
  expected_dim <- C.(parse_dimensionality) z_dim ;;
  if C.(dim_eqb) (C.(dim_of) result_quant) expected_dim then Ok result_quant
  else Err DimensionalityError.

(** [calculate_z(formula_, x_, y_, z_dim)]: the numeric result is
    [matrix_form.evalf()], the matrix of the two symbols [[x, y]]. *)
Definition calculate_z (formula_ : string) (x_ y_ : pyarg C.(pq)) (z_dim : string)
  : result C.(quantity) :=
  let '(x_magnitude, x_base) := is_dimensionless x_ in
  let '(y_magnitude, y_base) := is_dimensionless y_ in
  parsed_formula <- sympify_or_invalid formula_ ;;
  let result := MSymbols [["x"; "y"]] in
  sympy_x_unit <- C.(result_unit_pint_to_sympy_unit) x_magnitude x_base ;;
  let sympy_x_base := C.(create_sympy_quantity) x_magnitude sympy_x_unit in
  sympy_y_unit <- C.(result_unit_pint_to_sympy_unit) y_magnitude y_base ;;
  let sympy_y_base := C.(create_sympy_quantity) y_magnitude sympy_y_unit in
  expected_result_unit_sympy <-
    C.(result_unit_of_formula) parsed_formula (SQuantity sympy_x_base)
      (SQuantity sympy_y_base) ;;
  expected_result_unit <- C.(sympy_to_pint_quantity) expected_result_unit_sympy ;;
  wrap_and_check result (float_to_Hz expected_result_unit) z_dim.




End Collaborators.


End CalculateZ.

(** ** Shape of the formulas [formula_ast_dim.post_order] accepts *)
Module PostOrderShape.

Import FormulaAstDim.

(** Variables, binary nodes, and the nodes the [while] loop skips
    (literals and unary operators, whose operands it never visits). *)
Fixpoint names (e : expr) : nat :=
  match e with
  | Name _ => 1
  | BinOp l _ r => names l + names r
  | _ => 0
  end.

Fixpoint binops (e : expr) : nat :=
  match e with
  | BinOp l _ r => S (binops l + binops r)
  | _ => 0
  end.

Fixpoint skipped_nodes (e : expr) : nat :=
  match e with
  | Name _ => 0
  | BinOp l _ r => skipped_nodes l + skipped_nodes r
  | _ => 1
  end.

(** Every variable of the formula has an entry in [DIMENSIONS]. *)
Fixpoint names_defined (D : list (string * string)) (e : expr) : bool :=
  match e with
  | Name id => match dict_get D id with Some _ => true | None => false end
  | BinOp l _ r => names_defined D l && names_defined D r
  | _ => true
  end.

Lemma leaves_binops e : names e + skipped_nodes e = S (binops e).
Proof. induction e; simpl; lia. Qed.

(** Each variable pushes one entry and each binary node removes one. *)
Lemma post_count D e : forall out out',
  post D e out = Ok out' -> length out' + binops e = length out + names e.
Proof.
  induction e as [id | v | l IHl op r IHr | uop a]; intros out out' H;
    simpl in H |- *.
  - inversion H; subst; simpl; lia.
  - inversion H; subst; lia.
  - destruct (post D l out) as [o1|x] eqn:H1; [|discriminate]; simpl in H.
    destruct (post D r o1) as [o2|x] eqn:H2; [|discriminate]; simpl in H.
    apply IHl in H1. apply IHr in H2.
    destruct o2 as [|a [|b o3]]; simpl in H; try discriminate.
    destruct (result_dim op b a); simpl in H; [|discriminate].
    inversion H; subst; simpl in *; lia.
  - inversion H; subst; lia.
Qed.


End PostOrderShape.

(** ** [unit_handling/formula_ast_dim_96.py]

    The recursive variant of [post_order]. Its global
    [DIMENSIONS = {'x': 'm', 'y': 'm'}] is the parameter [D]; the [print]
    calls are not modelled. *)
Module FormulaAstDim96.

Import FormulaAstDim.

Definition DIMENSIONS : list (string * string) := [("x", "m"); ("y", "m")].

Fixpoint str_drop (n : nat) (s : string) : string :=
  match n, s with
  | O, _ => s
  | S n', String _ s' => str_drop n' s'
  | S _, EmptyString => EmptyString
  end.

(** [s.replace(old, '', 1)]: the first occurrence of [old] is removed. *)
Fixpoint replace_once (s old : string) : string :=
  if String.prefix old s then str_drop (String.length old) s
  else match s with
       | EmptyString => EmptyString
       | String c s' => String c (replace_once s' old)
       end.

(** [post_order(node)]. [frames] is the number of nested Python calls
    the interpreter still allows under [sys.getrecursionlimit()] when the
    call is made: a call made with none left raises [RecursionError]. The
    [print] calls, which only show the node's default [repr], are left out. *)
Fixpoint post_order (frames : nat) (D : list (string * string)) (node : expr)
  : result pyval :=
  match frames with
  | O => Err RecursionError
  | S frames' =>
      match node with
      | Name id => Ok (dict_get D id)
      | BinOp l op r =>
          left_dim <- post_order frames' D l ;;
          right_dim <- post_order frames' D r ;;
          match op with
          | Mult =>
              (* [left_dim + right_dim] *)
              match left_dim, right_dim with
              | Some a, Some b => Ok (Some (a ++ b))
              | _, _ => Err TypeError
              end
          | Add | Sub =>
              Ok (if pyval_eqb left_dim right_dim then left_dim else Some "Error")
          | Div =>
              if pyval_eqb left_dim right_dim then Ok (Some EmptyString)
              else match left_dim, right_dim with
                   | None, _ => Err AttributeError  (* [None.startswith] *)
                   | Some _, None => Err TypeError  (* [str.startswith(None)] *)
                   | Some a, Some b =>
                       if String.prefix b a then Ok (Some (replace_once a b))
                       else Ok (Some "Error")
                   end
          | _ => Ok (Some "Error")
          end
      | _ => Ok (Some EmptyString)
      end
  end.

(** The number of nested calls [post_order] makes on a node, itself included. *)
Fixpoint depth (e : expr) : nat :=
  match e with
  | BinOp l _ r => S (Nat.max (depth l) (depth r))
  | _ => 1
  end.

(** A call that returns with [frames] available returns the same with more. *)
Lemma post_order_more_frames D e : forall n m v,
  post_order n D e = Ok v -> n <= m -> post_order m D e = Ok v.
Proof.
  induction e as [id | c | l IHl op r IHr | uop a _]; intros [|n] [|m] v H Hle;
    try discriminate; try lia; simpl in H |- *; auto.
  destruct (post_order n D l) as [dl|el] eqn:Hl; simpl in H; [|discriminate].
  destruct (post_order n D r) as [dr|er] eqn:Hr; simpl in H; [|discriminate].
  rewrite (IHl n m dl Hl ltac:(lia)), (IHr n m dr Hr ltac:(lia)). exact H.
Qed.

Lemma prefix_app b a : String.prefix b (b ++ a) = true.
Proof.
  induction b as [|c b IH]; simpl; [destruct a; reflexivity|].
  destruct (Ascii.ascii_dec c c) as [_|n]; [exact IH | now elim n].
Qed.

Lemma str_drop_app b a : str_drop (String.length b) (b ++ a) = a.
Proof. induction b as [|c b IH]; simpl; [reflexivity | exact IH]. Qed.

Lemma replace_once_unfold s old :
  replace_once s old
  = if String.prefix old s then str_drop (String.length old) s
    else match s with
         | EmptyString => EmptyString
         | String c s' => String c (replace_once s' old)
         end.
Proof. destruct s; reflexivity. Qed.

Lemma replace_once_app b a : replace_once (b ++ a) b = a.
Proof. rewrite replace_once_unfold, prefix_app, str_drop_app. reflexivity. Qed.

Lemma app_eq_left b a : b ++ a = b -> a = EmptyString.
Proof.
  induction b as [|c b IH]; simpl; [auto|]. intros H. inversion H. auto.
Qed.

End FormulaAstDim96.

(** ** [unit_handling/sympy_pint_resulting_units.py]: [calculate_unit]

    A Python [str] over the code points 0 to 255 is a Rocq [string];
    [str.strip()] removes the characters [str.isspace] accepts there. *)
Module CalculateUnit.

(** [formula.replace(c, rep)] for a one-character [c]. *)
Fixpoint replace_char (c : Ascii.ascii) (rep s : string) : string :=
  match s with
  | EmptyString => EmptyString
  | String d s' =>
      if Ascii.eqb c d then rep ++ replace_char c rep s'
      else String d (replace_char c rep s')
  end.

Definition py_isspace (c : Ascii.ascii) : bool :=
  let n := Ascii.nat_of_ascii c in
  (((9 <=? n) && (n <=? 13)) || ((28 <=? n) && (n <=? 32))
  || (n =? 133) || (n =? 160))%nat.

Fixpoint lstrip (s : string) : string :=
  match s with
  | EmptyString => EmptyString
  | String c s' => if py_isspace c then lstrip s' else s
  end.

Fixpoint lstrip_list (l : list Ascii.ascii) : list Ascii.ascii :=
  match l with
  | [] => []
  | c :: l' => if py_isspace c then lstrip_list l' else l
  end.

Definition strip (s : string) : string :=
  string_of_list_ascii
    (rev (lstrip_list (rev (list_ascii_of_string (lstrip s))))).

(** [operations = set(["+", "-", "*", "/", "**"])] and [char in operations]. *)
Definition operations : list string := ["+"; "-"; "*"; "/"; "**"]%string.

Definition in_operations (c : Ascii.ascii) : bool :=
  existsb (String.eqb (String c EmptyString)) operations.

(** The parsing loop [for char in formula]. *)
Fixpoint parse (s : string) (operators operands : list string)
  (current_operand : string) : list string * list string :=
  match s with
  | EmptyString => (operators, app operands [strip current_operand])
  | String c s' =>
      if in_operations c
      then parse s' (app operators [String c EmptyString])
             (app operands [strip current_operand]) EmptyString
      else parse s' operators operands (current_operand ++ String c EmptyString)
  end.

(** [operands[i]] and [operands[i] = v] on a Python list. *)
Definition py_index (l : list string) (i : nat) : result string :=
  match nth_error l i with Some v => Ok v | None => Err IndexError end.

Definition py_setitem (l : list string) (i : nat) (v : string) : result (list string) :=
  if (i <? length l)%nat then Ok (app (firstn i l) (v :: skipn (S i) l)) else Err IndexError.

Definition addsub_error : exn :=
  UnitError "Dimensions must be the same for addition/subtraction".

Definition power_error : exn :=
  UnitError "Exponent must be dimensionless for power operation".

(** [for i, operator in enumerate(operators)], from index [i] on. *)
Fixpoint calc_loop (ops : list string) (i : nat) (operands : list string)
  : result (list string) :=
  match ops with
  | [] => Ok operands
  | operator :: ops' =>
      operands' <-
        (if existsb (String.eqb operator) ["+"; "-"]%string then
           a <- py_index operands i ;;
           b <- py_index operands (S i) ;;
           if negb (String.eqb a b) then Err addsub_error
           else py_setitem operands (S i) a
         else if String.eqb operator "*" then
           a <- py_index operands i ;;
           b <- py_index operands (S i) ;;
           py_setitem operands (S i) (a ++ "*" ++ b)
         else if String.eqb operator "/" then
           a <- py_index operands i ;;
           b <- py_index operands (S i) ;;
           py_setitem operands (S i) (a ++ "/" ++ b)
         else if String.eqb operator "**" then
           b <- py_index operands (S i) ;;
           if negb (String.eqb b EmptyString) then Err power_error
           else
             a <- py_index operands i ;;
             b' <- py_index operands (S i) ;;
             py_setitem operands (S i) (a ++ "^" ++ b')
         else Ok operands) ;;
      calc_loop ops' (S i) operands'
  end%string.

(** The formula after the substitution of [x] and [y] and the removal of
    the parentheses. *)
Definition prepare (formula x_dim y_dim : string) : string :=
  replace_char ")"%char EmptyString
    (replace_char "("%char EmptyString
       (replace_char "y"%char y_dim (replace_char "x"%char x_dim formula))).

Definition calculate_unit (formula x_dim y_dim : string) : result string :=
  let '(operators, operands) := parse (prepare formula x_dim y_dim) [] [] EmptyString in
  operands' <- calc_loop operators 0 operands ;;
  match rev operands' with
  | v :: _ => Ok v
  | [] => Err IndexError
  end.

(** A single character is in [operations] only as one of the four
    one-character operators: ["**"] never matches. *)
Lemma in_operations_char c :
  in_operations c = true -> In (String c EmptyString) ["+"; "-"; "*"; "/"]%string.
Proof.
  unfold in_operations. rewrite existsb_exists. intros [x [Hx Heq]].
  apply String.eqb_eq in Heq. rewrite Heq.
  simpl in Hx. destruct Hx as [<-|[<-|[<-|[<-|[<-|[]]]]]]; simpl; auto.
  inversion Heq.
Qed.

(** The parser's invariants: one operand more than operators, and every
    operator is one of the characters ['+'], ['-'], ['*'], ['/'] found in
    the formula. *)
Lemma parse_spec s : forall ops opnds cur ops' opnds',
  parse s ops opnds cur = (ops', opnds') ->
  length opnds = length ops ->
  length opnds' = S (length ops')
  /\ forall o, In o ops' ->
       In o ops \/ exists c, In c (list_ascii_of_string s)
                   /\ o = String c EmptyString
                   /\ In o ["+"; "-"; "*"; "/"]%string.
Proof.
  induction s as [|c s IH]; intros ops opnds cur ops' opnds' H Hl; simpl in H.
  - inversion H; subst. rewrite length_app. simpl. split; [lia|]. now left.
  - destruct (in_operations c) eqn:Hc.
    + destruct (IH _ _ _ _ _ H) as [Hlen Hin];
        [rewrite !length_app; simpl; lia|].
      split; [exact Hlen|]. intros o Ho.
      destruct (Hin o Ho) as [Ho'|(d & Hd & -> & Hop)].
      * apply in_app_or in Ho' as [Ho'|[<-|[]]]; [now left|].
        right. exists c. split; [now left|]. split; [reflexivity|].
        now apply in_operations_char.
      * right. exists d. split; [now right|]. split; [reflexivity|exact Hop].
    + destruct (IH _ _ _ _ _ H Hl) as [Hlen Hin]. split; [exact Hlen|].
      intros o Ho. destruct (Hin o Ho) as [Ho'|(d & Hd & -> & Hop)];
        [now left|]. right. exists d. split; [now right|]. now split.
Qed.

Lemma py_index_ok l i : i < length l -> exists v, py_index l i = Ok v.
Proof.
  intros H. unfold py_index. destruct (nth_error l i) eqn:E; [eauto|].
  apply nth_error_None in E. lia.
Qed.

Lemma py_setitem_length l i v l' :
  py_setitem l i v = Ok l' -> length l' = length l.
Proof.
  unfold py_setitem. destruct (i <? length l)%nat eqn:E; [|discriminate].
  apply Nat.ltb_lt in E. intros H. injection H as <-.
  destruct l as [|x l]; simpl in E; [lia|].
  rewrite length_app, length_firstn. simpl. rewrite length_skipn. lia.
Qed.

Lemma py_setitem_ok l i v : i < length l -> exists l', py_setitem l i v = Ok l'.
Proof.
  unfold py_setitem. intros H. apply Nat.ltb_lt in H. rewrite H. eauto.
Qed.

(** The evaluation loop keeps the number of operands and fails only on an
    addition or subtraction of different operands. *)
Lemma calc_loop_spec ops : forall i opnds,
  length opnds = S (i + length ops) ->
  (forall o, In o ops -> In o ["+"; "-"; "*"; "/"]%string) ->
  (forall res, calc_loop ops i opnds = Ok res -> length res = length opnds)
  /\ (forall e, calc_loop ops i opnds = Err e ->
        e = addsub_error /\ (In "+"%string ops \/ In "-"%string ops)).
Proof.
  induction ops as [|o ops IH]; intros i opnds Hlen Hops; simpl.
  - split; [intros res H; now inversion H | intros e H; discriminate].
  - simpl in Hlen.
    destruct (py_index_ok opnds i ltac:(lia)) as [a Ha].
    destruct (py_index_ok opnds (S i) ltac:(lia)) as [b Hb].
    assert (Hstep : forall v, exists l', py_setitem opnds (S i) v = Ok l'
                      /\ length l' = length opnds).
    { intros v. destruct (py_setitem_ok opnds (S i) v ltac:(lia)) as [l' Hl'].
      exists l'. split; [exact Hl'|]. eapply py_setitem_length; eauto. }
    assert (Hrest : forall l', length l' = length opnds ->
              (forall res, calc_loop ops (S i) l' = Ok res -> length res = length opnds)
              /\ (forall e, calc_loop ops (S i) l' = Err e ->
                    e = addsub_error /\ (In "+"%string ops \/ In "-"%string ops))).
    { intros l' Hl'. destruct (IH (S i) l') as [H1 H2];
        [lia | intros o' Ho'; apply Hops; now right|].
      split; [intros res Hr; rewrite <- Hl'; auto | exact H2]. }
    destruct (Hops o (or_introl eq_refl)) as [<-|[<-|[<-|[<-|[]]]]]; simpl;
      rewrite Ha, Hb; simpl.
    + destruct (String.eqb a b) eqn:Eab; simpl.
      * destruct (Hstep a) as (l' & -> & Hl'). simpl.
        destruct (Hrest l' Hl') as [H1 H2]. split; [exact H1|].
        intros e He. destruct (H2 e He) as [He' Hin]. split; [exact He'|].
        destruct Hin; [left|right]; now right.
      * split; [discriminate|]. intros e He. inversion He; subst.
        split; [reflexivity|]. left; now left.
    + destruct (String.eqb a b) eqn:Eab; simpl.
      * destruct (Hstep a) as (l' & -> & Hl'). simpl.
        destruct (Hrest l' Hl') as [H1 H2]. split; [exact H1|].
        intros e He. destruct (H2 e He) as [He' Hin]. split; [exact He'|].
        destruct Hin; [left|right]; now right.
      * split; [discriminate|]. intros e He. inversion He; subst.
        split; [reflexivity|]. right; now left.
    + match goal with
      | |- context [py_setitem opnds (S i) ?v] =>
          destruct (Hstep v) as (l' & -> & Hl')
      end. simpl.
      destruct (Hrest l' Hl') as [H1 H2]. split; [exact H1|].
      intros e He. destruct (H2 e He) as [He' Hin]. split; [exact He'|].
      destruct Hin; [left|right]; now right.
    + match goal with
      | |- context [py_setitem opnds (S i) ?v] =>
          destruct (Hstep v) as (l' & -> & Hl')
      end. simpl.
      destruct (Hrest l' Hl') as [H1 H2]. split; [exact H1|].
      intros e He. destruct (H2 e He) as [He' Hin]. split; [exact He'|].
      destruct Hin; [left|right]; now right.
Qed.

End CalculateUnit.

(** ** [Contour.initialize_diagram_labels] *)
Module DiagramLabels.

Import ContourInit.

(** The pair [(self.label_x, self.label_y)]. *)
Definition initialize_diagram_labels (c : Contour) : string * string :=
  (if swap_axes c then label_2 (ax c) else label_1 (ax c),
   if swap_axes c then label_1 (ax c) else label_2 (ax c)).

End DiagramLabels.

(** ** [Contour.filename_for_saved_contour_figure]

    [format(v, '.2f')] is the parameter [format_2f]; the axis samples are
    the magnitudes of [self.x_values] and [self.y_values]. The method's
    result is the value it assigns to [self.filename]. *)
Module FigureFilename.

Import ContourInit Filename.

Definition to_pystr (s : string) : pystr :=
  map Ascii.N_of_ascii (list_ascii_of_string s).

(** [values[0]] and [values[-1]]. *)
Definition first_value (l : list float) : result float :=
  match l with v :: _ => Ok v | [] => Err IndexError end.

Definition last_value (l : list float) : result float :=
  match rev l with v :: _ => Ok v | [] => Err IndexError end.

Section Figure.

Variables is_word is_space : N -> bool.
Variable format_2f : float -> string.

Definition filename_for_saved_contour_figure (c : Contour)
  (x_values y_values : list float) : result pystr :=
  (* [self.dim_res.replace("", "dimensionless")] of the empty string *)
  let dim_res := if String.eqb (dim_res c) EmptyString then "dimensionless"
                 else dim_res c in
  x0 <- first_value x_values ;;
  x1 <- last_value x_values ;;
  y0 <- first_value y_values ;;
  y1 <- last_value y_values ;;
  let filename := to_pystr
    ("F_" ++ title c ++ "_" ++ dim_res ++ "_X_" ++ dim_1 (ax c) ++ "_"
     ++ format_2f x0 ++ "-" ++ format_2f x1 ++ "_Y_" ++ dim_2 (ax c) ++ "_"
     ++ format_2f y0 ++ "-" ++ format_2f y1 ++ ".png") in
  Ok (if _is_valid_filename is_space filename then filename
      else _sanitize_filename is_word filename).

Hypothesis word_not_space : forall c, is_word c = true -> is_space c = false.
Hypothesis word_not_forbidden :
  forall c, is_word c = true -> existsb (N.eqb c) forbidden = false.
Hypothesis underscore_word : is_word 95%N = true.
Hypothesis dot_not_space : is_space 46%N = false.

Lemma sanitized_valid (s : pystr) :
  s <> [] -> _is_valid_filename is_space (_sanitize_filename is_word s) = true.
Proof.
  intros Hs.
  assert (Hchars : forallb (fun c => is_word c || N.eqb c 46)
                     (_sanitize_filename is_word s) = true).
  { unfold _sanitize_filename. rewrite forallb_forall. intros c Hc.
    apply in_map_iff in Hc as [c0 [<- _]].
    destruct (is_word c0) eqn:Hw; simpl; [now rewrite Hw|].
    destruct (N.eqb c0 46) eqn:He; simpl; [rewrite Hw, He; reflexivity|].
    now rewrite underscore_word. }
  assert (Hall : forallb (allowed is_space) (_sanitize_filename is_word s) = true).
  { rewrite forallb_forall in Hchars |- *. intros c Hc.
    specialize (Hchars c Hc). unfold allowed.
    destruct (is_word c) eqn:Hw.
    - now rewrite (word_not_space c Hw), (word_not_forbidden c Hw).
    - simpl in Hchars. apply N.eqb_eq in Hchars. subst c.
      rewrite dot_not_space. reflexivity. }
  destruct s as [|c s]; [contradiction|].
  unfold _is_valid_filename, pattern_match. simpl in Hall |- *.
  rewrite Hall. reflexivity.
Qed.

End Figure.

End FigureFilename.

(** ** Concrete instances *)

Import FormulaAstDim Filename ContourInit CalculateZ.

(** Python's character classes restricted to ASCII: [\w] is letters,
    digits and underscore, [\s] is tab to carriage return and space. *)
Definition ascii_word (c : N) : bool :=
  (((48 <=? c) && (c <=? 57)) || ((65 <=? c) && (c <=? 90))
  || ((97 <=? c) && (c <=? 122)) || (c =? 95))%N.

Definition ascii_space (c : N) : bool := (((9 <=? c) && (c <=? 13)) || (c =? 32))%N.

(** pint's answer to [UnitQuantity(1, dim)] on the unit expressions used
    below: the unit names are defined, ['m/'] fails pint's parser
    assertion, ['kg)'] is a tokenizer error, and ['blorb'] is no unit. *)
Definition pint_units (dim : string) : result unit :=
  if existsb (String.eqb dim) ["meter"; "m"; "m/s"; "mm"; "inch"; "mile"] then Ok tt
  else if String.eqb dim "m/" then Err (AssertionError EmptyString)
  else if String.eqb dim "kg)" then Err TokenError
  else Err UndefinedUnitError.

(** A sample instance of the collaborators, to show that the hypotheses of
    the theorems below can hold. Where it fixes what sympy, pint, numexpr or
    the [result_unit] package do, on the few inputs used below, that is a
    choice for the examples: [sympify] rejects the truncated formula
    ["x +"], [result_unit_of_formula] fails on raw pint units, a [None]
    magnitude is refused with a [TypeError], and [ne.evaluate] divides
    [x / y] element-wise in IEEE arithmetic and knows no other formula. *)
Definition numeric_model : collaborators := {|
  sexpr := string;
  sympify := fun s => if String.eqb s "x +" then Err SympifyError else Ok s;
  pq := float;
  to_base_units := fun q => q;
  pq_magnitude := fun q => q;
  create_pint_quantity_units := fun _ b =>
    match b with
    | BaseStr s => if String.eqb s EmptyString then Ok [] else Ok [(s, 1%Z)]
    | BaseQ _ => Ok [("meter", 1%Z)]
    end;
  result_unit_pint_to_sympy_unit := fun _ b =>
    match b with
    | BaseStr _ => Ok "1"
    | BaseQ _ => Ok "meter"
    end;
  create_sympy_quantity := fun _ u => u;
  result_unit_of_formula := fun p a b =>
    match a, b with
    | SQuantity u, SQuantity _ => if String.eqb p "x * y" then Ok (u ++ "**2") else Ok u
    | _, _ => Err DimensionalityError
    end;
  unit_arg := string;
  sympy_to_pint_quantity := fun u => Ok u;
  is_Float := fun _ => false;
  Hz := "Hz";
  quantity := magnitude * string;
  dimensionality := string;
  UREG_Quantity := fun m u =>
    match m with
    | MNone => Err TypeError
    | _ => Ok (m, u)
    end;
  dim_of := snd;
  parse_dimensionality := fun z => Ok z;
  dim_eqb := String.eqb;
  ne_evaluate := fun f x y =>
    if String.eqb f "x / y"
    then Ok (map (fun rows => map (fun p => (fst p / snd p)%float)
                                 (combine (fst rows) (snd rows)))
               (combine x y))
    else Err KeyError
|}.

(** ** Claims *)

#[local] Set Warnings "-inexact-float".

(** C2 (corrected). An addition or subtraction node whose operands are well
    formed never raises: [post_order] records the common dimension when
    the two operand dimensions are equal and the marker string
    ['Dimension Mismatch'] otherwise. *)
Theorem post_order_add_sub D l r dl dr op :
  (op = Add \/ op = Sub) ->
  post_order D l = Ok dl -> post_order D r = Ok dr ->
  post_order D (BinOp l op r)
  = Ok (if pyval_eqb dl dr then dl else Some "Dimension Mismatch").
Proof.
  intros Hop Hl Hr. rewrite (post_order_binop _ _ _ _ _ _ Hl Hr).
  destruct Hop as [-> | ->]; reflexivity.
Qed.

Lemma post_order_add_sub_witness :
  post_order DIMENSIONS (BinOp (Name "x") Add (Name "y"))
  = Ok (Some "Dimension Mismatch").
Proof.
  apply (post_order_add_sub DIMENSIONS (Name "x") (Name "y") (Some "m") (Some "s") Add);
    [left; reflexivity | reflexivity | reflexivity].
Defined.

(** C2, counterexample: [x + y] with [x] in metres and [y] in seconds
    raises nothing; its dimension is the string ['Dimension Mismatch']. *)
Lemma post_order_add_mismatch_no_error :
  post_order DIMENSIONS (BinOp (Name "x") Add (Name "y"))
  = Ok (Some "Dimension Mismatch")
  /\ forall e, post_order DIMENSIONS (BinOp (Name "x") Add (Name "y")) <> Err e.
Proof. split; [reflexivity | intros e; vm_compute; discriminate]. Qed.

(** C3 (corrected). For a division node with well formed operands,
    [post_order] gives the empty string [''] when the two operand
    dimensions are equal, and the string [left + '/' + right] otherwise
    (a [TypeError] when one of them is [None]). *)
Theorem post_order_div D l r dl dr :
  post_order D l = Ok dl -> post_order D r = Ok dr ->
  post_order D (BinOp l Div r)
  = if pyval_eqb dl dr then Ok (Some EmptyString) else concat3 dl "/" dr.
Proof.
  intros Hl Hr. rewrite (post_order_binop _ _ _ _ _ _ Hl Hr). simpl.
  destruct (pyval_eqb dl dr); reflexivity.
Qed.

Lemma post_order_div_witness :
  post_order DIMENSIONS (BinOp (Name "x") Div (Name "y")) = Ok (Some "m/s").
Proof.
  apply (post_order_div DIMENSIONS (Name "x") (Name "y") (Some "m") (Some "s"));
    reflexivity.
Defined.

(** C3, counterexample: [x / x] yields the empty string, not a
    dimensionless exponent vector. *)
Lemma post_order_div_equal_empty :
  post_order DIMENSIONS (BinOp (Name "x") Div (Name "x")) = Ok (Some EmptyString).
Proof. reflexivity. Qed.

(** C4 (code_bug). Powers are not dimension-propagated. [post_order] on
    ["x**2"], documented in [formula_ast_dim.py] as giving [m^2], raises
    an [IndexError] whatever the dimensions: the literal exponent pushes
    no dimension, so the power node pops from an exhausted stack. And
    [calculate_unit], which checks that an exponent is dimensionless, lets
    ["x**y"] with [y] in seconds through as ['m**s']: it splits the formula
    one character at a time, so ["**"] is never an operator. *)
Theorem post_order_pow_literal D id v :
  post_order D (BinOp (Name id) Pow (Constant v)) = Err IndexError
  /\ CalculateUnit.calculate_unit "x**y" "m" "s" = Ok "m**s".
Proof. split; [reflexivity | vm_compute; reflexivity]. Qed.

(** C5 (corrected). In step mode ([nstep = False]) the [log] flag is not
    looked at: sample generation is [np.arange(start, stop, step)], the
    same as step/linear mode, and no configuration error is raised. *)
Theorem generate_values_step_log logspace start stop step :
  _generate_values logspace start stop step false true
  = Numpy.arange start stop step
  /\ _generate_values logspace start stop step false true
     = _generate_values logspace start stop step false false.
Proof. split; reflexivity. Qed.

(** C5, counterexample: step 0.5 from 1 to 2 with [log = True] gives the
    samples [1, 1.5]. *)
Lemma generate_values_step_log_samples :
  _generate_values (fun _ _ _ => Err KeyError) 1 2 0.5 false true
  = Ok [1; 1.5]%float.
Proof. vm_compute. reflexivity. Qed.

(** C6. [start=1, stop=2, step=0.1] in step/linear mode gives exactly 10
    samples, all in [[1, 2)]; [start=1, stop=2, count=10] in count/linear
    mode gives exactly 10 samples [1 + i*(2-1)/9] for [i < 9], the last
    one being [2]. *)
Theorem generate_values_boundaries logspace :
  (exists xs, _generate_values logspace 1 2 0.1 false false = Ok xs
     /\ length xs = 10%nat
     /\ forallb (fun v => (1 <=? v)%float && (v <? 2)%float) xs = true)
  /\ (exists ys, _generate_values logspace 1 2 10 true false = Ok ys
     /\ length ys = 10%nat
     /\ hd_error ys = Some 1%float
     /\ last ys 0%float = 2%float
     /\ firstn 9 ys
        = map (fun i => (PyFloat.of_Z i * ((2 - 1) / 9) + 1)%float)
            (map Z.of_nat (seq 0 9))).
Proof.
  split; eexists; (split; [vm_compute; reflexivity|]); vm_compute;
    repeat split; reflexivity.
Qed.

(** C9. Under the facts Python's Unicode classes satisfy (a word character
    is neither white space nor one of the excluded punctuation characters,
    ['_'] is a word character, ['.'] is not white space), sanitizing a
    non-empty string gives a non-empty string of the same length, made of
    word characters and dots, accepted by [_is_valid_filename]; sanitizing
    twice is sanitizing once. *)
Theorem sanitize_filename_valid (is_word is_space : N -> bool) (s : pystr) :
  (forall c, is_word c = true -> is_space c = false) ->
  (forall c, is_word c = true -> existsb (N.eqb c) forbidden = false) ->
  is_word 95%N = true -> is_space 46%N = false ->
  s <> [] ->
  _sanitize_filename is_word s <> []
  /\ length (_sanitize_filename is_word s) = length s
  /\ forallb (fun c => is_word c || N.eqb c 46) (_sanitize_filename is_word s) = true
  /\ _is_valid_filename is_space (_sanitize_filename is_word s) = true
  /\ _sanitize_filename is_word (_sanitize_filename is_word s)
     = _sanitize_filename is_word s.
Proof.
  intros Hws Hwf Hu Hd Hs.
  assert (Hchars : forallb (fun c => is_word c || N.eqb c 46)
                     (_sanitize_filename is_word s) = true).
  { unfold _sanitize_filename. rewrite forallb_forall. intros c Hc.
    apply in_map_iff in Hc as [c0 [<- _]].
    destruct (is_word c0) eqn:Hw; simpl; [now rewrite Hw|].
    destruct (N.eqb c0 46) eqn:He; simpl; [rewrite Hw, He; reflexivity|].
    now rewrite Hu. }
  assert (Hallowed : forallb (allowed is_space) (_sanitize_filename is_word s) = true).
  { rewrite forallb_forall in Hchars |- *. intros c Hc.
    specialize (Hchars c Hc). unfold allowed.
    destruct (is_word c) eqn:Hw.
    - now rewrite (Hws c Hw), (Hwf c Hw).
    - simpl in Hchars. apply N.eqb_eq in Hchars. subst c.
      rewrite Hd. reflexivity. }
  repeat split.
  - destruct s; [contradiction|]. discriminate.
  - apply length_map.
  - exact Hchars.
  - destruct s as [|c s]; [contradiction|].
    unfold _is_valid_filename, pattern_match. simpl in Hallowed |- *.
    rewrite Hallowed. reflexivity.
  - unfold _sanitize_filename. rewrite map_map. apply map_ext. intros c.
    destruct (is_word c || N.eqb c 46) eqn:Hc; rewrite ?Hc; [reflexivity|].
    now rewrite Hu.
Qed.

Lemma sanitize_filename_valid_witness :
  _is_valid_filename ascii_space (_sanitize_filename ascii_word [102; 47; 64; 46]%N)
  = true.
Proof.
  destruct (sanitize_filename_valid ascii_word ascii_space [102; 47; 64; 46]%N)
    as (_ & _ & _ & H & _).
  - intros c Hc. unfold ascii_word, ascii_space in *.
    repeat rewrite orb_true_iff, ?andb_true_iff, ?N.leb_le, ?N.eqb_eq in Hc.
    apply not_true_is_false. intros Hs.
    repeat rewrite orb_true_iff, ?andb_true_iff, ?N.leb_le, ?N.eqb_eq in Hs.
    lia.
  - intros c Hc. unfold ascii_word in Hc.
    repeat rewrite orb_true_iff, ?andb_true_iff, ?N.leb_le, ?N.eqb_eq in Hc.
    apply not_true_is_false. intros Hf. simpl in Hf.
    repeat rewrite orb_true_iff, ?N.eqb_eq in Hf. lia.
  - reflexivity.
  - reflexivity.
  - discriminate.
  - exact H.
Defined.

(** C10. A successfully constructed [Contour] stores [title], [formula],
    [dim_res], [nstep_x], [nstep_y], [x_log], [y_log], [swap_axes] and
    [verbose] as given; with [swap_axes = True] axis 1 holds the axis-2
    arguments and axis 2 the axis-1 arguments, with [swap_axes = False]
    both axes hold their own arguments. *)
Theorem contour_init_swap UnitQuantity t l1 l2 f dr mn1 mx1 st1 d1 mn2 mx2 st2 d2
  nx ny xl yl sw vb c :
  __init__ UnitQuantity t l1 l2 f dr mn1 mx1 st1 d1 mn2 mx2 st2 d2
    nx ny xl yl sw vb = Ok c ->
  title c = t /\ formula c = f /\ dim_res c = dr /\ nstep_x c = nx
  /\ nstep_y c = ny /\ x_log c = xl /\ y_log c = yl /\ swap_axes c = sw
  /\ verbose c = vb
  /\ ax c = (if sw then mkAxes l2 mn2 mx2 st2 d2 l1 mn1 mx1 st1 d1
             else mkAxes l1 mn1 mx1 st1 d1 l2 mn2 mx2 st2 d2).
Proof.
  unfold __init__.
  destruct (unit_validation UnitQuantity [dr; d1; d2]); simpl; [|discriminate].
  destruct (py_assert (mn1 <? mx1)%float _); simpl; [|discriminate].
  destruct (py_assert (mn2 <? mx2)%float _); simpl; [|discriminate].
  destruct (py_assert (0 <? st1)%float _); simpl; [|discriminate].
  destruct (py_assert (0 <? st2)%float _); simpl; [|discriminate].
  intros H. inversion H; subst; clear H. simpl.
  repeat split.
Qed.

Lemma contour_init_swap_witness :
  exists c,
    __init__ (fun _ => Ok tt) "title" "label_1" "label_2" "x + y" "inch"
      1 2 0.1 "mm" 3 4 0.2 "mile" false false false false true false = Ok c
    /\ label_1 (ax c) = "label_2" /\ dim_2 (ax c) = "mm".
Proof.
  eexists. split; [vm_compute; reflexivity|].
  match goal with
  | |- label_1 (ax ?c) = _ /\ _ =>
      assert (H : __init__ (fun _ => Ok tt) "title" "label_1" "label_2" "x + y" "inch"
        1 2 0.1 "mm" 3 4 0.2 "mile" false false false false true false = Ok c)
        by (vm_compute; reflexivity)
  end.
  destruct (contour_init_swap _ _ _ _ _ _ _ _ _ _ _ _ _ _ _ _ _ _ _ _ _ H)
    as (_ & _ & _ & _ & _ & _ & _ & _ & _ & Hax).
  rewrite Hax. split; reflexivity.
Defined.

(** X19. Whatever the formula and the inputs, a successful [calculate_z] wraps
    the symbol matrix [[x, y]]: the formula is never evaluated at the
    input magnitudes. *)
Lemma calculate_z_magnitude C f x y z q :
  calculate_z C f x y z = Ok q ->
  exists u, C.(UREG_Quantity) (MSymbols [["x"; "y"]]) u = Ok q.
Proof.
  unfold calculate_z. destruct (is_dimensionless C x), (is_dimensionless C y).
  destruct (sympify_or_invalid C f); simpl; [|discriminate].
  destruct (result_unit_pint_to_sympy_unit C _ _); simpl; [|discriminate].
  destruct (result_unit_pint_to_sympy_unit C _ _); simpl; [|discriminate].
  destruct (result_unit_of_formula C _ _ _); simpl; [|discriminate].
  destruct (sympy_to_pint_quantity C _); simpl; [|discriminate].
  unfold wrap_and_check.
  destruct (UREG_Quantity C _ _) eqn:Hq; simpl; [|discriminate].
  destruct (parse_dimensionality C z); simpl; [|discriminate].
  destruct (dim_eqb C _ _); [|discriminate].
  intros H. inversion H; subst. eexists. exact Hq.
Qed.






(** ** Further properties of the code *)

(** X1. A multiplication node with well formed operands has the dimension
    [left + '*' + right], and raises a [TypeError] when one of the two
    operand dimensions is [None]. *)
Theorem post_order_mult D l r dl dr :
  post_order D l = Ok dl -> post_order D r = Ok dr ->
  post_order D (BinOp l Mult r) = concat3 dl "*" dr.
Proof.
  intros Hl Hr. rewrite (post_order_binop _ _ _ _ _ _ Hl Hr). reflexivity.
Qed.

Lemma post_order_mult_witness :
  post_order DIMENSIONS (BinOp (Name "x") Mult (Name "y")) = Ok (Some "m*s")
  /\ post_order DIMENSIONS (BinOp (Name "z") Mult (Name "y")) = Err TypeError.
Proof.
  split.
  - apply (post_order_mult DIMENSIONS (Name "x") (Name "y") (Some "m") (Some "s"));
      reflexivity.
  - apply (post_order_mult DIMENSIONS (Name "z") (Name "y") None (Some "s"));
      reflexivity.
Defined.

(** X2. The stack traversal never visits the operand of a unary operator
    and pushes nothing for a literal, so every formula containing a
    numeric literal or a unary operator (such as [x**2], [2*x] or [-x])
    fails: each variable pushes one entry, each binary node consumes one,
    and such a formula has no entry left for [out[0]]. *)
Theorem post_order_literal_fails D e :
  0 < PostOrderShape.skipped_nodes e -> exists ex, post_order D e = Err ex.
Proof.
  intros Hs. destruct (post_order D e) as [d|ex] eqn:H; [|now exists ex].
  exfalso. apply post_order_single in H.
  apply PostOrderShape.post_count in H. simpl in H.
  pose proof (PostOrderShape.leaves_binops e). lia.
Qed.

Lemma post_order_literal_fails_witness :
  exists ex, post_order DIMENSIONS (BinOp (Constant 2) Mult (Name "x")) = Err ex.
Proof. apply post_order_literal_fails. simpl. lia. Defined.



(** X4. In the recursive variant [formula_ast_dim_96.post_order],
    dividing a product by its left factor gives back the other factor:
    [(r * l) / r] has the dimension of [l] whenever both have a string
    dimension, given two more nested calls than [l] and [r] need. *)
Theorem post_order96_cancel n D l r a b :
  FormulaAstDim96.post_order n D l = Ok (Some a) ->
  FormulaAstDim96.post_order n D r = Ok (Some b) ->
  FormulaAstDim96.post_order (2 + n) D (BinOp (BinOp r Mult l) Div r) = Ok (Some a).
Proof.
  intros Hl Hr.
  pose proof (FormulaAstDim96.post_order_more_frames D r n (S n) _ Hr ltac:(lia)) as Hr'.
  change (2 + n) with (S (S n)). remember (S n) as m eqn:Hm.
  simpl. rewrite Hr'. subst m.
  simpl. rewrite Hr, Hl. simpl.
  destruct (String.eqb (b ++ a) b) eqn:E.
  - apply String.eqb_eq, FormulaAstDim96.app_eq_left in E. now subst.
  - now rewrite FormulaAstDim96.prefix_app, FormulaAstDim96.replace_once_app.
Qed.

Lemma post_order96_cancel_witness :
  FormulaAstDim96.post_order 3 [("x", "m"); ("y", "s")]
    (BinOp (BinOp (Name "y") Mult (Name "x")) Div (Name "y")) = Ok (Some "m").
Proof.
  apply (post_order96_cancel 1 [("x", "m"); ("y", "s")] (Name "x") (Name "y") "m" "s");
    reflexivity.
Defined.

(** X5. The recursive variant gives every literal and unary node the
    dimension [''] instead of skipping it: when all variables have a
    dimension, it yields a string whatever literals, unary and binary
    operators the formula contains, as long as the formula's nesting
    [depth] fits in the frames the interpreter still allows; a deeper
    formula raises [RecursionError]. *)
Theorem post_order96_total n D e :
  PostOrderShape.names_defined D e = true ->
  (FormulaAstDim96.depth e <= n ->
     exists s, FormulaAstDim96.post_order n D e = Ok (Some s))
  /\ (n < FormulaAstDim96.depth e ->
     FormulaAstDim96.post_order n D e = Err RecursionError).
Proof.
  revert n.
  induction e as [id | v | l IHl op r IHr | uop a IH]; intros n; simpl; intros Hd.
  - split; intros Hn; destruct n as [|n]; try lia; [|reflexivity].
    simpl. destruct (FormulaAstDim.dict_get D id) as [s|]; [now exists s | discriminate].
  - split; intros Hn; destruct n as [|n]; try lia; [|reflexivity].
    eexists; reflexivity.
  - apply andb_true_iff in Hd as [Hl Hr].
    split; intros Hn; (destruct n as [|n]; [try lia; reflexivity|]); simpl.
    + destruct (proj1 (IHl n Hl) ltac:(lia)) as [sa ->].
      destruct (proj1 (IHr n Hr) ltac:(lia)) as [sb ->]. simpl.
      destruct op; simpl; try (eexists; reflexivity);
        try (destruct (String.eqb sa sb); eexists; reflexivity).
      destruct (String.eqb sa sb); [eexists; reflexivity|].
      destruct (String.prefix sb sa); eexists; reflexivity.
    + destruct (Nat.lt_ge_cases n (FormulaAstDim96.depth l)) as [Hlt | Hge].
      * now rewrite (proj2 (IHl n Hl) Hlt).
      * destruct (proj1 (IHl n Hl) Hge) as [sa ->]. simpl.
        now rewrite (proj2 (IHr n Hr) ltac:(lia)).
  - split; intros Hn; destruct n as [|n]; try lia; [|reflexivity].
    eexists; reflexivity.
Qed.

Lemma post_order96_total_witness :
  exists s, FormulaAstDim96.post_order 100 FormulaAstDim96.DIMENSIONS
    (BinOp (Name "x") Pow (Constant 2)) = Ok (Some s).
Proof.
  apply (proj1 (post_order96_total 100 FormulaAstDim96.DIMENSIONS
                  (BinOp (Name "x") Pow (Constant 2)) eq_refl)).
  simpl. lia.
Defined.

(** X6. [calculate_unit] raises only the addition/subtraction [UnitError],
    and only when the prepared formula contains a ['+'] or a ['-']: the
    power branch is dead code, since the formula is split one character
    at a time and ["**"] is never an operator. *)
Theorem calculate_unit_only_addsub_error f x_dim y_dim e :
  CalculateUnit.calculate_unit f x_dim y_dim = Err e ->
  e = UnitError "Dimensions must be the same for addition/subtraction"
  /\ (In "+"%char (list_ascii_of_string (CalculateUnit.prepare f x_dim y_dim))
      \/ In "-"%char (list_ascii_of_string (CalculateUnit.prepare f x_dim y_dim))).
Proof.
  unfold CalculateUnit.calculate_unit.
  destruct (CalculateUnit.parse (CalculateUnit.prepare f x_dim y_dim) [] [] EmptyString)
    as [ops opnds] eqn:Hp.
  destruct (CalculateUnit.parse_spec _ _ _ _ _ _ Hp eq_refl) as [Hlen Hops].
  assert (Hops' : forall o, In o ops -> In o ["+"; "-"; "*"; "/"]%string).
  { intros o Ho. destruct (Hops o Ho) as [[]|(c & _ & -> & Hc)]. exact Hc. }
  destruct (CalculateUnit.calc_loop_spec ops 0 opnds ltac:(simpl; lia) Hops')
    as [Hok Herr].
  destruct (CalculateUnit.calc_loop ops 0 opnds) as [res|ex] eqn:Hl; simpl.
  - specialize (Hok res eq_refl). intros H.
    destruct (rev res) eqn:Hr; [|discriminate].
    apply (f_equal (@length string)) in Hr. rewrite length_rev in Hr.
    simpl in Hr. lia.
  - intros H. inversion H; subst. destruct (Herr e eq_refl) as [He Hin].
    split; [exact He|].
    destruct Hin as [Hin|Hin]; destruct (Hops _ Hin) as [[]|(c & Hc & Heq & _)];
      injection Heq as <-; [left|right]; exact Hc.
Qed.

Lemma calculate_unit_only_addsub_error_witness :
  CalculateUnit.calculate_unit "y * y / (x + y)" "m" "m"
  = Err (UnitError "Dimensions must be the same for addition/subtraction")
  /\ In "+"%char (list_ascii_of_string (CalculateUnit.prepare "y * y / (x + y)" "m" "m")).
Proof.
  assert (H : CalculateUnit.calculate_unit "y * y / (x + y)" "m" "m"
              = Err (UnitError "Dimensions must be the same for addition/subtraction"))
    by (vm_compute; reflexivity).
  split; [exact H|].
  destruct (calculate_unit_only_addsub_error _ _ _ _ H) as [_ [Hin|Hin]];
    [exact Hin|].
  vm_compute. auto 20.
Defined.

(** [unit_validation] succeeds exactly when pint accepts every unit. *)
Lemma unit_validation_ok ud dims :
  unit_validation ud dims = Ok tt <-> forallb (unit_defined ud) dims = true.
Proof.
  induction dims as [|d ds IH]; simpl; [split; reflexivity|].
  unfold unit_defined at 1.
  destruct (ud d) as [[]|e]; simpl; [exact IH | destruct e; split; discriminate].
Qed.

(** X7. The constructor succeeds exactly when pint accepts the three units,
    [min_1 < max_1], [min_2 < max_2], [step_1 > 0] and [step_2 > 0]. *)
Theorem contour_init_ok_iff ud t l1 l2 f dr mn1 mx1 st1 d1 mn2 mx2 st2 d2
  nx ny xl yl sw vb :
  (exists c, __init__ ud t l1 l2 f dr mn1 mx1 st1 d1 mn2 mx2 st2 d2
               nx ny xl yl sw vb = Ok c)
  <-> (forallb (unit_defined ud) [dr; d1; d2] = true /\ (mn1 <? mx1)%float = true
       /\ (mn2 <? mx2)%float = true /\ (0 <? st1)%float = true
       /\ (0 <? st2)%float = true).
Proof.
  unfold __init__, py_assert. split.
  - intros [c H].
    destruct (unit_validation ud [dr; d1; d2]) as [[]|] eqn:Hu; simpl in H;
      [|discriminate].
    apply unit_validation_ok in Hu.
    destruct (mn1 <? mx1)%float, (mn2 <? mx2)%float, (0 <? st1)%float,
      (0 <? st2)%float; simpl in H; try discriminate.
    repeat split; assumption.
  - intros (Hu & H1 & H2 & H3 & H4). apply unit_validation_ok in Hu.
    rewrite Hu, H1, H2, H3, H4. simpl. eexists; reflexivity.
Qed.

(** The exception [unit_validation] raises for the unit [dim] on which
    pint raised [e]. *)
Lemma unit_validation_first_rejected_aux ud dims e :
  unit_validation ud dims = Err e ->
  exists pre dim post, dims = (pre ++ dim :: post)%list
    /\ forallb (unit_defined ud) pre = true
    /\ ((ud dim = Err UndefinedUnitError
         /\ e = UnitError ("Dimension " ++ dim ++ " is not defined in the pint module"))
        \/ (ud dim = Err e /\ e <> UndefinedUnitError)).
Proof.
  induction dims as [|d ds IH]; simpl; [discriminate|].
  destruct (ud d) as [[]|e'] eqn:Hd.
  - intros H. destruct (IH H) as (pre & d' & post & -> & Hpre & Hd').
    exists (d :: pre), d', post. simpl. unfold unit_defined at 1.
    rewrite Hd. auto.
  - intros H. exists [], d, ds. split; [reflexivity|]. split; [reflexivity|].
    destruct e'; inversion H; subst;
      first [left; split; [exact Hd | reflexivity]
            | right; split; [exact Hd | discriminate]].
Qed.

(** X8. [unit_validation] stops at the first unit pint does not accept
    (the units before it are all accepted): pint's [UndefinedUnitError]
    becomes a [UnitError] naming that unit, and any other exception of
    pint propagates unchanged. *)
Theorem unit_validation_first_rejected ud dims e :
  unit_validation ud dims = Err e ->
  exists pre dim post, dims = (pre ++ dim :: post)%list
    /\ forallb (unit_defined ud) pre = true
    /\ ((ud dim = Err UndefinedUnitError
         /\ e = UnitError ("Dimension " ++ dim ++ " is not defined in the pint module"))
        \/ (ud dim = Err e /\ e <> UndefinedUnitError)).
Proof. apply unit_validation_first_rejected_aux. Qed.

Lemma unit_validation_first_rejected_witness :
  exists pre dim post, ["meter"; "m/"; "blorb"] = (pre ++ dim :: post)%list
    /\ forallb (unit_defined pint_units) pre = true
    /\ ((pint_units dim = Err UndefinedUnitError
         /\ AssertionError EmptyString
            = UnitError ("Dimension " ++ dim ++ " is not defined in the pint module"))
        \/ (pint_units dim = Err (AssertionError EmptyString)
            /\ AssertionError EmptyString <> UndefinedUnitError)).
Proof.
  apply (unit_validation_first_rejected pint_units ["meter"; "m/"; "blorb"]).
  vm_compute. reflexivity.
Defined.

(** X9. The diagram labels do not follow the swapped axes: whatever
    [swap_axes], the x label is the argument [label_1] and the y label
    the argument [label_2], while with [swap_axes = True] the x axis is
    sampled from the axis-2 arguments ([dim_2], [min_2], [max_2],
    [step_2]). *)
Theorem diagram_labels_not_swapped ud t l1 l2 f dr mn1 mx1 st1 d1 mn2 mx2 st2 d2
  nx ny xl yl sw vb c :
  __init__ ud t l1 l2 f dr mn1 mx1 st1 d1 mn2 mx2 st2 d2 nx ny xl yl sw vb = Ok c ->
  DiagramLabels.initialize_diagram_labels c = (l1, l2)
  /\ dim_1 (ax c) = (if sw then d2 else d1)
  /\ min_1 (ax c) = (if sw then mn2 else mn1)
  /\ max_1 (ax c) = (if sw then mx2 else mx1)
  /\ step_1 (ax c) = (if sw then st2 else st1).
Proof.
  unfold __init__.
  destruct (unit_validation ud [dr; d1; d2]); simpl; [|discriminate].
  destruct (py_assert (mn1 <? mx1)%float _); simpl; [|discriminate].
  destruct (py_assert (mn2 <? mx2)%float _); simpl; [|discriminate].
  destruct (py_assert (0 <? st1)%float _); simpl; [|discriminate].
  destruct (py_assert (0 <? st2)%float _); simpl; [|discriminate].
  intros H. inversion H; subst; clear H.
  unfold DiagramLabels.initialize_diagram_labels. simpl.
  destruct sw; repeat split.
Qed.

Lemma diagram_labels_not_swapped_witness :
  exists c,
    __init__ (fun _ => Ok tt) "title" "length" "time" "x / y" "m/s"
      1 2 0.1 "m" 3 4 0.2 "s" false false false false true false = Ok c
    /\ DiagramLabels.initialize_diagram_labels c = ("length", "time")
    /\ dim_1 (ax c) = "s".
Proof.
  eexists. split; [vm_compute; reflexivity|].
  match goal with
  | |- DiagramLabels.initialize_diagram_labels ?c = _ /\ _ =>
      assert (H : __init__ (fun _ => Ok tt) "title" "length" "time" "x / y" "m/s"
        1 2 0.1 "m" 3 4 0.2 "s" false false false false true false = Ok c)
        by (vm_compute; reflexivity)
  end.
  destruct (diagram_labels_not_swapped _ _ _ _ _ _ _ _ _ _ _ _ _ _ _ _ _ _ _ _ _ H)
    as (Hl & Hd & _).
  split; assumption.
Defined.

(** X10. Under the facts Python's Unicode classes satisfy (as for
    [_sanitize_filename]), the name [filename_for_saved_contour_figure]
    stores always passes [_is_valid_filename]: it is the generated name
    when that one is valid, and its sanitized form otherwise. *)
Theorem figure_filename_valid (is_word is_space : N -> bool) format_2f c xs ys fn :
  (forall ch, is_word ch = true -> is_space ch = false) ->
  (forall ch, is_word ch = true -> existsb (N.eqb ch) forbidden = false) ->
  is_word 95%N = true -> is_space 46%N = false ->
  FigureFilename.filename_for_saved_contour_figure is_word is_space format_2f c xs ys
  = Ok fn ->
  _is_valid_filename is_space fn = true.
Proof.
  intros Hws Hwf Hu Hd.
  unfold FigureFilename.filename_for_saved_contour_figure.
  destruct (FigureFilename.first_value xs); cbn [bind]; [|discriminate].
  destruct (FigureFilename.last_value xs); cbn [bind]; [|discriminate].
  destruct (FigureFilename.first_value ys); cbn [bind]; [|discriminate].
  destruct (FigureFilename.last_value ys); cbn [bind]; [|discriminate].
  cbv zeta. set (raw := FigureFilename.to_pystr _).
  assert (Hne : raw <> []) by (unfold raw, FigureFilename.to_pystr; discriminate).
  clearbody raw. intros H. injection H as <-.
  destruct (_is_valid_filename is_space raw) eqn:Hv; [exact Hv|].
  apply FigureFilename.sanitized_valid; auto.
Qed.

Lemma figure_filename_valid_witness :
  exists fn,
    FigureFilename.filename_for_saved_contour_figure ascii_word ascii_space
      (fun _ => "1.00")
      (mkContour "Flow rate" "x * y" EmptyString false false false false false
         (mkAxes "width" 1 2 0.5 "m" "speed" 1 2 0.5 "m/s") false)
      [1; 2]%float [1; 2]%float = Ok fn
    /\ _is_valid_filename ascii_space fn = true.
Proof.
  eexists. split; [vm_compute; reflexivity|].
  apply (figure_filename_valid ascii_word ascii_space (fun _ => "1.00")
    (mkContour "Flow rate" "x * y" EmptyString false false false false false
       (mkAxes "width" 1 2 0.5 "m" "speed" 1 2 0.5 "m/s") false)
    [1; 2]%float [1; 2]%float).
  - intros ch Hc. unfold ascii_word, ascii_space in *.
    repeat rewrite orb_true_iff, ?andb_true_iff, ?N.leb_le, ?N.eqb_eq in Hc.
    apply not_true_is_false. intros Hs.
    repeat rewrite orb_true_iff, ?andb_true_iff, ?N.leb_le, ?N.eqb_eq in Hs.
    lia.
  - intros ch Hc. unfold ascii_word in Hc.
    repeat rewrite orb_true_iff, ?andb_true_iff, ?N.leb_le, ?N.eqb_eq in Hc.
    apply not_true_is_false. intros Hf. simpl in Hf.
    repeat rewrite orb_true_iff, ?N.eqb_eq in Hf. lia.
  - reflexivity.
  - reflexivity.
  - vm_compute. reflexivity.
Defined.

(** X11. [filename_for_saved_contour_figure] raises an [IndexError] when
    the x or the y axis has no sample. *)
Theorem figure_filename_empty_axis is_word is_space format_2f c xs ys :
  xs = [] \/ ys = [] ->
  FigureFilename.filename_for_saved_contour_figure is_word is_space format_2f c xs ys
  = Err IndexError.
Proof.
  intros [-> | ->]; unfold FigureFilename.filename_for_saved_contour_figure; simpl;
    [reflexivity|].
  destruct xs as [|x xs]; [reflexivity|]. simpl.
  unfold FigureFilename.last_value.
  destruct (rev (x :: xs)) eqn:E; [|reflexivity].
  apply (f_equal (@length float)) in E. rewrite length_rev in E. discriminate.
Qed.

Lemma figure_filename_empty_axis_witness :
  FigureFilename.filename_for_saved_contour_figure ascii_word ascii_space
    (fun _ => "1.00")
    (mkContour "t" "x" "m" false false false false false
       (mkAxes "a" 1 2 0.5 "m" "b" 1 2 0.5 "m") false)
    [1]%float [] = Err IndexError.
Proof. apply figure_filename_empty_axis. now right. Defined.

Lemma lin_from_length start step k n : length (Numpy.lin_from start step k n) = n.
Proof. revert k; induction n; simpl; intros; [reflexivity | now rewrite IHn]. Qed.

Lemma fill_from_length start delta k n : length (Numpy.fill_from start delta k n) = n.
Proof. revert k; induction n; simpl; intros; [reflexivity | now rewrite IHn]. Qed.

Lemma to_nat_small n m : Z.to_nat n = m -> (0 <= n)%Z -> n = Z.of_nat m.
Proof. intros <- H. now rewrite Z2Nat.id. Qed.

(** X12. In count/linear mode ([nstep] set, [log] unset) the number of
    samples is [int(step_interval)], the value truncated towards zero, and
    from two samples on the last one is [stop] exactly; a negative count
    is an error. *)
Theorem generate_values_count_linear logspace start stop k ys :
  _generate_values logspace start stop k true false = Ok ys ->
  exists n, PyFloat.py_int k = Ok n /\ (0 <= n)%Z /\ length ys = Z.to_nat n
    /\ ((2 <= n)%Z -> last ys 0%float = stop).
Proof.
  unfold _generate_values. simpl. intros Hg.
  destruct (PyFloat.py_int k) as [n|ex]; simpl in Hg; [|discriminate].
  unfold Numpy.linspace in Hg. destruct (n <? 0)%Z eqn:Hn; [discriminate|].
  apply Z.ltb_ge in Hn. exists n. revert Hg.
  destruct (Z.to_nat n) as [|[|n']] eqn:Hz; intros Hg; injection Hg as <-;
    apply to_nat_small in Hz; auto; repeat split; auto; try lia.
  - rewrite length_app. simpl.
    destruct (_ =? 0)%float; simpl;
      [rewrite !length_map, length_seq | rewrite lin_from_length]; lia.
  - intros _. apply last_last.
Qed.

Lemma generate_values_count_linear_witness :
  exists n, PyFloat.py_int 4.7 = Ok n /\ (0 <= n)%Z
    /\ length [1; 1 + 1/3; 1 + 2/3; 2]%float = Z.to_nat n
    /\ ((2 <= n)%Z -> last [1; 1 + 1/3; 1 + 2/3; 2]%float 0%float = 2%float).
Proof.
  apply (generate_values_count_linear (fun _ _ _ => Err KeyError) 1 2 4.7).
  vm_compute. reflexivity.
Defined.

(** X13. In step mode ([nstep] unset) the number of samples is
    [ceil((stop - start)/step)] (none when that is not positive), and the
    first sample is [start]. *)
Theorem generate_values_step_count logspace start stop step log xs :
  _generate_values logspace start stop step false log = Ok xs ->
  exists len, PyFloat.ceil ((stop - start) / step) = Some len
    /\ length xs = Z.to_nat len
    /\ hd_error xs = (if (0 <? len)%Z then Some start else None).
Proof.
  unfold _generate_values. simpl. unfold Numpy.arange.
  destruct (step =? 0)%float; [discriminate|].
  destruct (PyFloat.ceil ((stop - start) / step)) as [len|];
    [|destruct PyFloat.is_nan; discriminate].
  destruct (_ || _)%Z; [discriminate|].
  destruct (Numpy.NPY_MAX_INTP <? _)%Z; [discriminate|].
  intros Hg. exists len. split; [reflexivity|]. revert Hg.
  destruct (Z.to_nat len) as [|[|n']] eqn:Hz; intros Hg; injection Hg as <-;
    simpl; (split; [try rewrite fill_from_length; reflexivity|]).
  - destruct (0 <? len)%Z eqn:E; [apply Z.ltb_lt in E; lia | reflexivity].
  - destruct (0 <? len)%Z eqn:E; [reflexivity | apply Z.ltb_ge in E; lia].
  - destruct (0 <? len)%Z eqn:E; [reflexivity | apply Z.ltb_ge in E; lia].
Qed.

Lemma generate_values_step_count_witness :
  exists len, PyFloat.ceil ((2 - 1) / 0.25)%float = Some len
    /\ length [1; 1.25; 1.5; 1.75]%float = Z.to_nat len
    /\ hd_error [1; 1.25; 1.5; 1.75]%float
       = (if (0 <? len)%Z then Some 1%float else None).
Proof.
  apply (generate_values_step_count (fun _ _ _ => Err KeyError) 1 2 0.25 false).
  vm_compute. reflexivity.
Defined.

Lemma punit_eqb_eq u v : punit_eqb u v = true -> u = v.
Proof.
  revert v; induction u as [|[n k] u IH]; intros [|[m l] v]; simpl;
    try discriminate; [reflexivity|].
  intros H. apply andb_true_iff in H as [H H3]. apply andb_true_iff in H as [H1 H2].
  apply String.eqb_eq in H1. apply Z.eqb_eq in H2. subst. f_equal. now apply IH.
Qed.

Lemma lookup_in d k s : lookup d k = Ok s -> In (k, s) d.
Proof.
  induction d as [|[k' v] d IH]; simpl; [discriminate|].
  destruct (punit_eqb k k') eqn:E.
  - intros H. inversion H; subst. apply punit_eqb_eq in E. subst. now left.
  - intros H. right. now apply IH.
Qed.

Lemma lookup_err d k e : lookup d k = Err e -> e = KeyError.
Proof.
  induction d as [|[k' v] d IH]; simpl; [congruence|].
  destruct (punit_eqb k k'); [discriminate | exact IH].
Qed.

(** X14. [pint_to_sympy_unit] returns a sympy unit only for a pint unit
    that is one of the eight keys of [unit_mapping_pint_sympy] (metre,
    second, ampere, candela, gram, mole, kelvin, radian, each to the
    power one), and then the one that key maps to. *)
Theorem pint_to_sympy_unit_keys C v b s :
  pint_to_sympy_unit C v b = Ok s ->
  exists u, C.(create_pint_quantity_units) v b = Ok u
    /\ In (u, s) unit_mapping_pint_sympy.
Proof.
  unfold pint_to_sympy_unit.
  destruct (create_pint_quantity_units C v b) as [u|ex]; cbn [bind]; [|discriminate].
  intros H. exists u. split; [reflexivity | now apply lookup_in].
Qed.

Lemma pint_to_sympy_unit_keys_witness :
  exists u, numeric_model.(create_pint_quantity_units) 5%float (BaseQ 5%float) = Ok u
    /\ In (u, "meter") unit_mapping_pint_sympy.
Proof. apply (pint_to_sympy_unit_keys numeric_model 5%float (BaseQ 5%float)). reflexivity. Defined.

(** X15. [pint_to_sympy_unit] raises a [KeyError] for pint's base unit of
    mass, the kilogram (the mapping has the gram), for [dimensionless],
    and for every compound unit such as [meter / second]. *)
Theorem pint_to_sympy_unit_rejects C v b u :
  C.(create_pint_quantity_units) v b = Ok u ->
  u = [("kilogram", 1%Z)] \/ u = [] \/ 2 <= length u ->
  pint_to_sympy_unit C v b = Err KeyError.
Proof.
  intros Hc Hu. unfold pint_to_sympy_unit. rewrite Hc. cbn [bind].
  destruct (lookup unit_mapping_pint_sympy u) as [s|ex] eqn:Hl.
  - exfalso. apply lookup_in in Hl. simpl in Hl.
    destruct Hu as [->|[->|Hu]];
      repeat (destruct Hl as [Hl|Hl]; [inversion Hl; subst; simpl in *; lia|]);
      exact Hl.
  - apply lookup_err in Hl. now subst.
Qed.

Lemma pint_to_sympy_unit_rejects_witness :
  pint_to_sympy_unit numeric_model 1%float (BaseStr "kilogram") = Err KeyError.
Proof.
  apply (pint_to_sympy_unit_rejects numeric_model 1%float (BaseStr "kilogram")
           [("kilogram", 1%Z)]); [reflexivity | now left].
Defined.

Lemma calculate_z_magnitude_witness :
  exists u, numeric_model.(UREG_Quantity) (MSymbols [["x"; "y"]]) u
            = Ok (MSymbols [["x"; "y"]], "meter").
Proof.
  apply (calculate_z_magnitude numeric_model "x / y" (PintQuantity 5%float)
           (PintQuantity 0%float) "meter").
  vm_compute. reflexivity.
Defined.

Lemma forallb_rev {A} (p : A -> bool) l : forallb p (rev l) = forallb p l.
Proof.
  induction l as [|a l IH]; simpl; [reflexivity|].
  rewrite forallb_app, IH. simpl. rewrite andb_true_r, andb_comm. reflexivity.
Qed.

(** X17. [_is_valid_filename] accepts a name that ends in a newline, a
    white-space character: Python's [$] also matches just before a final
    newline, so a non-empty name of allowed characters followed by ['\n']
    is valid. *)
Theorem valid_filename_trailing_newline is_space s :
  s <> [] -> forallb (allowed is_space) s = true ->
  _is_valid_filename is_space (s ++ [10%N])%list = true.
Proof.
  intros Hs H. destruct s as [|c s]; [contradiction|].
  unfold _is_valid_filename, pattern_match.
  change ((c :: s) ++ [10%N])%list with (c :: (s ++ [10%N]))%list.
  rewrite app_comm_cons, rev_unit.
  destruct (rev (c :: s)) as [|x t] eqn:E.
  - apply (f_equal (@length N)) in E. rewrite length_rev in E. discriminate.
  - rewrite <- E, forallb_rev, H. cbn [N.eqb Pos.eqb]. apply orb_true_r.
Qed.

Lemma valid_filename_trailing_newline_witness :
  ascii_space 10%N = true
  /\ _is_valid_filename ascii_space (app [112; 108; 111; 116]%N [10%N]) = true.
Proof.
  split; [reflexivity|].
  apply valid_filename_trailing_newline; [discriminate | reflexivity].
Defined.

(** X18. [_is_valid_filename] accepts no empty name and no name with white
    space or one of the excluded characters, except for one newline at
    the very end. *)
Theorem valid_filename_chars is_space s :
  _is_valid_filename is_space s = true ->
  s <> []
  /\ forallb (allowed is_space) (removelast s) = true
  /\ (allowed is_space (last s 0%N) = true \/ last s 0%N = 10%N).
Proof.
  destruct s as [|c s]; [discriminate|]. intros H. split; [discriminate|].
  unfold _is_valid_filename, pattern_match in H.
  assert (Hs : c :: s = (removelast (c :: s) ++ [last (c :: s) 0%N])%list)
    by (apply app_removelast_last; discriminate).
  set (r := removelast (c :: s)) in *. set (z := last (c :: s) 0%N) in *.
  clearbody r z. rewrite Hs in H.
  apply orb_true_iff in H as [H|H].
  - rewrite forallb_app in H. apply andb_true_iff in H as [H1 H2].
    simpl in H2. rewrite andb_true_r in H2. split; [exact H1 | now left].
  - rewrite rev_unit in H.
    destruct (rev r) as [|x t] eqn:E; [discriminate H|].
    change ((N.eqb z 10 && forallb (allowed is_space) (x :: t))%bool = true) in H.
    apply andb_true_iff in H as [H1 H2]. apply N.eqb_eq in H1.
    split; [|now right].
    rewrite <- forallb_rev, E. exact H2.
Qed.

Lemma valid_filename_chars_witness :
  [112; 108; 111; 116; 10]%N <> []
  /\ forallb (allowed ascii_space) (removelast [112; 108; 111; 116; 10]%N) = true
  /\ (allowed ascii_space (last [112; 108; 111; 116; 10]%N 0%N) = true
      \/ last [112; 108; 111; 116; 10]%N 0%N = 10%N).
Proof. apply valid_filename_chars. reflexivity. Defined.


